(** * A shallow embedding of [server.py]: the CORS development server and
      its quote proxy.

    The file follows the source top-down.  [Module PyStr] holds the few
    [str] methods the handler uses, [Section UrlParse] the part of
    [urllib.parse] behind [parse_qs], [Section Server] the request handler
    class itself ([CORSRequestHandler]) on top of the send/flush interface
    of [http.server.BaseHTTPRequestHandler]; what the base class writes to
    its log is left out.

    A Python [str] is held as the [string] of its UTF-8 bytes, which is
    what a literal of this file is; every character the handler inspects
    ([?], [&], [=], [+], [%] and the route prefix) is ASCII, so that
    splitting, replacing and joining act on the bytes as they act on the
    characters.  [bytes] written to the socket are [string]s as well. *)

From Stdlib Require Import ZArith Ascii String.
From stdpp Require Import gmap strings list fin_maps pretty.

Local Open Scope Z_scope.

(** ** [str] methods *)

Module PyStr.

(** [s.startswith(prefix)] *)
Fixpoint startswith (prefix s : string) : bool :=
  match prefix, s with
  | EmptyString, _ => true
  | String _ _, EmptyString => false
  | String a prefix', String b s' => Ascii.eqb a b && startswith prefix' s'
  end.

(** [c in s] for a one-character [c] *)
Fixpoint contains (c : ascii) (s : string) : bool :=
  match s with
  | EmptyString => false
  | String b s' => Ascii.eqb b c || contains c s'
  end.

(** [s.split(sep)] for a one-character separator.  The result is never
    empty; [split_pieces] returns its first element apart, which lets
    the recursion extend the piece being read. *)
Fixpoint split_pieces (sep : ascii) (s : string) : string * list string :=
  match s with
  | EmptyString => (EmptyString, [])
  | String c s' =>
      let '(piece, pieces) := split_pieces sep s' in
      if Ascii.eqb c sep then (EmptyString, piece :: pieces)
      else (String c piece, pieces)
  end.

Definition split (sep : ascii) (s : string) : list string :=
  let '(piece, pieces) := split_pieces sep s in piece :: pieces.

(** [s.split(sep, 1)]: cut at the first separator only. *)
Fixpoint split_first (sep : ascii) (s : string) : list string :=
  match s with
  | EmptyString => [EmptyString]
  | String c s' =>
      if Ascii.eqb c sep then [EmptyString; s']
      else match split_first sep s' with
           | piece :: pieces => String c piece :: pieces
           | [] => [String c EmptyString]
           end
  end.

(** [s.replace(old, new)] for a non-empty [old]: the string is scanned
    from the left, every occurrence found is replaced and the scan
    resumes behind it (occurrences never overlap).  [skip] counts the
    characters of the current occurrence still to be dropped. *)
Fixpoint replace_scan (old new : string) (skip : nat) (s : string) : string :=
  match s with
  | EmptyString => EmptyString
  | String c s' =>
      match skip with
      | S k => replace_scan old new k s'
      | O =>
          if startswith old s
          then new +:+ replace_scan old new (Nat.pred (String.length old)) s'
          else String c (replace_scan old new O s')
      end
  end.

Definition replace (old new s : string) : string := replace_scan old new O s.

(** [s[n:]] *)
Fixpoint drop (n : nat) (s : string) : string :=
  match n, s with
  | S k, String _ s' => drop k s'
  | _, _ => s
  end.

(** [s.removeprefix(prefix)]: what stripping a leading prefix means.
    The handler does not call it; [replace] is compared with it. *)
Definition removeprefix (prefix s : string) : string :=
  if startswith prefix s then drop (String.length prefix) s else s.

(** [s.isascii()] *)
Fixpoint isascii (s : string) : bool :=
  match s with
  | EmptyString => true
  | String c s' => (N_of_ascii c <? 128)%N && isascii s'
  end.

(** Whether [s.encode('latin-1', 'strict')] succeeds, that is, whether
    every character of [s] is below U+0100.  In UTF-8 such a character
    is one byte below 0x80, or the byte 0xC2 or 0xC3 and one continuation
    byte; [pending] tells that the continuation byte is due. *)
Definition continuation (c : ascii) : bool :=
  (128 <=? N_of_ascii c)%N && (N_of_ascii c <? 192)%N.

Fixpoint latin_1_scan (pending : bool) (s : string) : bool :=
  match s with
  | EmptyString => negb pending
  | String c s' =>
      if pending then continuation c && latin_1_scan false s'
      else if (N_of_ascii c <? 128)%N then latin_1_scan false s'
      else if (N_of_ascii c =? 194)%N || (N_of_ascii c =? 195)%N
           then latin_1_scan true s'
           else false
  end.

Definition latin_1 (s : string) : bool := latin_1_scan false s.

End PyStr.

(** ** [urllib.parse]: query strings *)

Section UrlParse.

(** [unquote] returns a string without [%] as it is.  Its other branch
    decodes the [%xx] escapes and reads the bytes as UTF-8, replacing
    what is ill-formed; the handler never depends on what that decoder
    answers, so it is left open. *)
Variable unquote_escapes : string -> string.

Definition unquote (s : string) : string :=
  if PyStr.contains "%" s then unquote_escapes s else s.

(** [parse_qsl(qs)] with the defaults [keep_blank_values=False],
    [strict_parsing=False], [max_num_fields=None], [separator='&']:
    the loop appends to [r] the pairs that have an [=] and a value. *)
Definition parse_qsl_field (r : list (string * string)) (name_value : string)
  : list (string * string) :=
  match name_value with
  | EmptyString => r
  | _ =>
      match PyStr.split_first "=" name_value with
      | [nv0; nv1] =>
          match nv1 with
          | EmptyString => r
          | _ =>
              let name := unquote (PyStr.replace "+" " " nv0) in
              let value := unquote (PyStr.replace "+" " " nv1) in
              r ++ [(name, value)]
          end
      | _ => r
      end
  end.

Definition parse_qsl (qs : string) : list (string * string) :=
  let query_args :=
    match qs with EmptyString => [] | _ => PyStr.split "&" qs end in
  foldl parse_qsl_field [] query_args.

(** [parse_qs(qs)]: the pairs grouped by name, values in order. *)
Definition parse_qs_pair (parsed_result : gmap string (list string))
    (pair : string * string) : gmap string (list string) :=
  let '(name, value) := pair in
  match parsed_result !! name with
  | Some values => <[name := values ++ [value]]> parsed_result
  | None => <[name := [value]]> parsed_result
  end.

Definition parse_qs (qs : string) : gmap string (list string) :=
  foldl parse_qs_pair ∅ (parse_qsl qs).

End UrlParse.


(** ** The world around the handler *)

(** What [urlopen] followed by [response.read()] may do: hand back the
    body, or raise.  The three constructors of [exn] are the three
    [except] clauses of the handler, tried in this order: [HTTPError]
    (with [e.code] and [e.reason]), any other [URLError] (with
    [str(e.reason)]), any other [Exception] (with [str(e)]). *)
Inductive exn :=
| HTTPError (code : Z) (reason : string)
| URLError (reason : string)
| Exception (text : string).

Inductive outcome :=
| Returns (data : string)
| Raises (e : exn).

(** [urllib.request.Request(url, headers=headers)] together with the
    keyword arguments of [urlopen]. *)
Record Request := {
  full_url : string;
  headers : list (string * string);
  verify_certificates : bool;
  timeout : Z
}.

(** ** The handler object *)

(** A line of the header block, and what goes down the socket: a flushed
    header block, or a piece of body. *)
Inductive line :=
| StatusLine (code : Z) (message : string)
| Header (keyword value : string).

Inductive output :=
| Head (lines : list line)
| Body (data : string).

(** [self], the trace of outbound calls made so far, and the exception
    that left the last method, when one did. *)
Record handler := {
  command : string;               (* self.command *)
  path : string;                  (* self.path *)
  request_version : string;       (* self.request_version *)
  headers_buffer : list line;     (* self._headers_buffer *)
  wfile : list output;            (* what was written to self.wfile *)
  outbound : list Request;        (* calls of urlopen, in order *)
  uncaught : option exn           (* what the method raised to its caller *)
}.

Definition set_headers_buffer (b : list line) (self : handler) : handler :=
  {| command := command self; path := path self;
     request_version := request_version self; headers_buffer := b;
     wfile := wfile self; outbound := outbound self;
     uncaught := uncaught self |}.

Definition set_wfile (w : list output) (self : handler) : handler :=
  {| command := command self; path := path self;
     request_version := request_version self;
     headers_buffer := headers_buffer self; wfile := w;
     outbound := outbound self; uncaught := uncaught self |}.

Definition set_outbound (o : list Request) (self : handler) : handler :=
  {| command := command self; path := path self;
     request_version := request_version self;
     headers_buffer := headers_buffer self; wfile := wfile self;
     outbound := o; uncaught := uncaught self |}.

Definition set_uncaught (e : option exn) (self : handler) : handler :=
  {| command := command self; path := path self;
     request_version := request_version self;
     headers_buffer := headers_buffer self; wfile := wfile self;
     outbound := outbound self; uncaught := e |}.

(** A handler that has just read a request line [cmd p HTTP/1.1]. *)
Definition fresh (cmd p : string) : handler :=
  {| command := cmd; path := p; request_version := "HTTP/1.1";
     headers_buffer := []; wfile := []; outbound := []; uncaught := None |}.

(** A handler that has just read a request line of HTTP/0.9: [GET p]
    without a version, or [cmd p HTTP/0.9]. *)
Definition fresh_0_9 (cmd p : string) : handler :=
  {| command := cmd; path := p; request_version := "HTTP/0.9";
     headers_buffer := []; wfile := []; outbound := []; uncaught := None |}.

(** A piece of a method: it runs to its end, or raises; in both cases
    it leaves the handler as it is by then. *)
Definition step : Type := handler -> option exn * handler.

Definition returns (f : handler -> handler) : step :=
  fun self => (None, f self).

(** Statements in a row: the first that raises ends the row. *)
Fixpoint sequence (steps : list step) : step :=
  fun self =>
    match steps with
    | [] => (None, self)
    | f :: steps' =>
        match f self with
        | (None, self) => sequence steps' self
        | (Some e, self) => (Some e, self)
        end
    end.

(** A method is over: what it raised, if anything, goes to its caller. *)
Definition finish (r : option exn * handler) : handler :=
  set_uncaught r.1 r.2.

Definition crlf : string := String "013" (String "010" EmptyString).

(** The calls by which code of the base classes answers a request.
    They are made on [self]: [end_headers] is the one of the subclass. *)
Inductive call :=
| Call_send_response (code : Z) (message : option string)
| Call_send_response_only (code : Z) (message : option string)
| Call_send_header (keyword value : string)
| Call_end_headers
| Call_send_error (code : Z) (message explain : option string)
| Call_write (data : string).

(** A small world to run the handler in: a few entries of
    [self.responses], an error page reduced to its message, no static
    file at all, and upstreams that answer every call alike. *)
Module Demo.

Definition responses (code : Z) : option (string * string) :=
  if code =? 200 then Some ("OK", "Request fulfilled, document follows")
  else if code =? 404 then Some ("Not Found", "Nothing matches the given URI")
  else if code =? 500 then Some ("Internal Server Error", "Server got itself in trouble")
  else None.

Definition version_string : string := "SimpleHTTP/0.6 Python/3.11.2".
Definition date_time_string : string := "Tue, 03 Nov 2026 10:15:00 GMT".

Definition error_page (code : Z) (message explain : string) : string :=
  "Error response: " +:+ message +:+ ". " +:+ explain +:+ ".".

Definition unquote_escapes (s : string) : string := s.

Definition encode_error (text : string) : string :=
  "'latin-1' codec can't encode characters: ordinal not in range(256)".

Definition no_static_file (self : handler) : list call :=
  [Call_send_error 404 (Some "File not found") None].

Definition upstream_up (n : nat) (req : Request) : outcome :=
  Returns "{}".
Definition upstream_not_found (n : nat) (req : Request) : outcome :=
  Raises (HTTPError 404 "Not Found").
Definition upstream_unreachable (n : nat) (req : Request) : outcome :=
  Raises (URLError "timed out").
Definition upstream_broken (n : nat) (req : Request) : outcome :=
  Raises (Exception "Remote end closed connection without response").

End Demo.

Section Server.

(** A proof depends on the variables of its statement only. *)
Set Default Proof Using "Type".

(** *** What the base classes and the network provide *)

(** [self.responses]: status code to short and long message. *)
Variable responses : Z -> option (string * string).
(** [self.version_string()] and [self.date_time_string()]. *)
Variable version_string : string.
Variable date_time_string : string.
(** The body of an error page: [error_message_format] filled with the
    code, the escaped message and the escaped explanation, as bytes. *)
Variable error_page : Z -> string -> string -> string.
(** The upstream: what the [n]-th outbound call answers to a request. *)
Variable urlopen : nat -> Request -> outcome.
Variable unquote_escapes : string -> string.
(** [str(e)] of the [UnicodeEncodeError] that encoding a text raises. *)
Variable encode_error : string -> string.
(** [SimpleHTTPRequestHandler.do_GET] and [do_HEAD]: whatever they do
    for a request, they do it through calls on [self]. *)
Variable SimpleHTTPRequestHandler_do_GET : handler -> list call.
Variable SimpleHTTPRequestHandler_do_HEAD : handler -> list call.

(** *** [BaseHTTPRequestHandler]

    For a request of HTTP/0.9 the base class buffers no status line and
    no header, and flushes nothing.  A line is encoded when it is
    buffered, [latin-1] and [strict]: a character above U+00FF raises
    [UnicodeEncodeError], and nothing is buffered. *)

Definition wfile_write (data : string) (self : handler) : handler :=
  set_wfile (wfile self ++ [Body data]) self.

(** The message of the status line when the caller gives none. *)
Definition short_message (code : Z) : string :=
  match responses code with
  | Some (shortmsg, _) => shortmsg
  | None => EmptyString
  end.

(** ["%s %d %s\r\n" % (self.protocol_version, code, message)] *)
Definition status_line_text (code : Z) (message : string) : string :=
  "HTTP/1.0 " +:+ pretty code +:+ " " +:+ message +:+ crlf.

(** ["%s: %s\r\n" % (keyword, value)] *)
Definition header_line_text (keyword value : string) : string :=
  keyword +:+ ": " +:+ value +:+ crlf.

Definition send_response_only (code : Z) (message : option string) : step :=
  fun self =>
    if String.eqb (request_version self) "HTTP/0.9" then (None, self)
    else
      let message := default (short_message code) message in
      let text := status_line_text code message in
      if PyStr.latin_1 text
      then (None, set_headers_buffer
                    (headers_buffer self ++ [StatusLine code message]) self)
      else (Some (Exception (encode_error text)), self).

Definition send_header (keyword value : string) : step :=
  fun self =>
    if String.eqb (request_version self) "HTTP/0.9" then (None, self)
    else
      let text := header_line_text keyword value in
      if PyStr.latin_1 text
      then (None, set_headers_buffer
                    (headers_buffer self ++ [Header keyword value]) self)
      else (Some (Exception (encode_error text)), self).

Definition send_response (code : Z) (message : option string) : step :=
  sequence
    [ send_response_only code message;
      send_header "Server" version_string;
      send_header "Date" date_time_string ].

Definition flush_headers (self : handler) : handler :=
  let self := set_wfile (wfile self ++ [Head (headers_buffer self)]) self in
  set_headers_buffer [] self.

Definition BaseHTTPRequestHandler_end_headers : step :=
  fun self =>
    if String.eqb (request_version self) "HTTP/0.9" then (None, self)
    else (None, flush_headers self).

(** *** [CORSRequestHandler.end_headers] (lines 9-14) *)

Definition end_headers : step :=
  sequence
    [ send_header "Access-Control-Allow-Origin" "*";
      send_header "Access-Control-Allow-Methods" "GET, POST, OPTIONS";
      send_header "Access-Control-Allow-Headers" "Content-Type";
      BaseHTTPRequestHandler_end_headers ].

(** *** [BaseHTTPRequestHandler.send_error]; its [self.end_headers()]
    is the method above *)

(** [code >= 200 and code not in (NO_CONTENT, RESET_CONTENT, NOT_MODIFIED)] *)
Definition has_body (code : Z) : bool :=
  (200 <=? code) && negb ((code =? 204) || (code =? 205) || (code =? 304)).

Definition send_error (code : Z) (message explain : option string) : step :=
  fun self =>
    let '(shortmsg, longmsg) := default ("???", "???") (responses code) in
    let message := default shortmsg message in
    let explain := default longmsg explain in
    let body :=
      if has_body code then Some (error_page code message explain)
      else None in
    sequence
      [ send_response code (Some message);
        send_header "Connection" "close";
        match body with
        | Some b =>
            sequence
              [ send_header "Content-Type" "text/html;charset=utf-8";
                send_header "Content-Length" (pretty (String.length b)) ]
        | None => sequence []
        end;
        end_headers;
        match body with
        | Some b =>
            if negb (String.eqb (command self) "HEAD") && negb (String.eqb b "")
            then returns (wfile_write b) else sequence []
        | None => sequence []
        end ]
      self.

(** Code of the base classes, run on this object. *)
Definition run_call (c : call) : step :=
  match c with
  | Call_send_response code message => send_response code message
  | Call_send_response_only code message => send_response_only code message
  | Call_send_header keyword value => send_header keyword value
  | Call_end_headers => end_headers
  | Call_send_error code message explain => send_error code message explain
  | Call_write data => returns (wfile_write data)
  end.

Definition run (calls : list call) (self : handler) : handler :=
  finish (sequence (run_call <$> calls) self).

(** *** [do_OPTIONS] (lines 16-18) *)

Definition do_OPTIONS (self : handler) : handler :=
  finish (sequence [ send_response 200 None; end_headers ] self).

(** *** [handle_api_request] (lines 28-81) *)

(** [l[i]], which raises [IndexError] out of range. *)
Definition index {A} (l : list A) (i : nat) : exn + A :=
  match l !! i with
  | Some x => inr x
  | None => inl (Exception "list index out of range")
  end.

(** Lines 32-41: the symbol and the period of a path. *)
Definition symbol_and_period (p : string) : exn + (string * string) :=
  let path_parts := PyStr.split "?" p in
  match index path_parts 0 with
  | inl e => inl e
  | inr part0 =>
      let symbol := PyStr.replace "/api/quote/" "" part0 in
      if (1 <? length path_parts)%nat then
        match index path_parts 1 with
        | inl e => inl e
        | inr part1 =>
            let params := parse_qs unquote_escapes part1 in
            match index (default ["1d"] (params !! "period")) 0 with
            | inl e => inl e
            | inr period => inr (symbol, period)
            end
        end
      else inr (symbol, "1d")
  end.

(** Lines 44-52. *)
Definition interval_map : gmap string string :=
  <["1d" := "5m"]> (<["5d" := "15m"]> (<["1mo" := "1d"]> (<["3mo" := "1d"]>
    (<["6mo" := "1d"]> (<["1y" := "1wk"]> ∅))))).

Definition interval_of (period : string) : string :=
  default "1d" (interval_map !! period).

(** Line 55. *)
Definition chart_url (symbol interval period : string) : string :=
  "https://query1.finance.yahoo.com/v8/finance/chart/" +:+ symbol
    +:+ "?interval=" +:+ interval +:+ "&range=" +:+ period.

(** Lines 58-65. *)
Definition user_agent : string :=
  "Mozilla/5.0 (Windows NT 10.0; Win64; x64) AppleWebKit/537.36 (KHTML, like Gecko) Chrome/91.0.4472.124 Safari/537.36".

Definition chart_request (url : string) : Request :=
  {| full_url := url; headers := [("User-Agent", user_agent)];
     verify_certificates := false; timeout := 10 |}.

(** The body of the [try]: [None] when it ran to its end, the
    exception otherwise. *)
Definition try_quote (self : handler) : option exn * handler :=
  match symbol_and_period (path self) with
  | inl e => (Some e, self)
  | inr (symbol, period) =>
      let interval := interval_of period in
      let url := chart_url symbol interval period in
      let req := chart_request url in
      let answer := urlopen (length (outbound self)) req in
      let self := set_outbound (outbound self ++ [req]) self in
      match answer with
      | Raises e => (Some e, self)
      | Returns data =>
          sequence
            [ send_response 200 None;
              send_header "Content-Type" "application/json";
              end_headers;
              returns (wfile_write data) ]
            self
      end
  end.

(** The [except] clauses.  What they raise themselves is caught by
    nobody. *)
Definition handle_api_request (self : handler) : handler :=
  finish
    match try_quote self with
    | (None, self) => (None, self)
    | (Some (HTTPError code reason), self) =>
        send_error code (Some ("API Error: " +:+ reason)) None self
    | (Some (URLError reason), self) =>
        send_error 500 (Some ("Connection Error: " +:+ reason)) None self
    | (Some (Exception text), self) =>
        send_error 500 (Some ("Server Error: " +:+ text)) None self
    end.

(** *** [do_GET] (lines 20-26) *)

Definition do_GET (self : handler) : handler :=
  if PyStr.startswith "/api/quote/" (path self)
  then handle_api_request self
  else run (SimpleHTTPRequestHandler_do_GET self) self.


(** *** The CORS headers, and what it is for an output to carry them *)

Definition cors_headers : list line :=
  [ Header "Access-Control-Allow-Origin" "*";
    Header "Access-Control-Allow-Methods" "GET, POST, OPTIONS";
    Header "Access-Control-Allow-Headers" "Content-Type" ].

Definition carries_cors (o : output) : Prop :=
  match o with
  | Head lines => Forall (fun h => h ∈ lines) cors_headers
  | Body _ => True
  end.

Definition is_body (o : output) : Prop :=
  match o with
  | Head _ => False
  | Body _ => True
  end.

(** One response: a header block that opens with the status line,
    followed by body pieces only. *)
Definition responds (before after : list output) (code : Z)
    (message : string) : Prop :=
  exists lines body,
    after = before ++ Head (StatusLine code message :: lines) :: body
    /\ Forall is_body body.

(** *** What further properties speak of *)

(** The values a list of pairs gives to a name, in the order of the
    pairs. *)
Definition values_named (name : string) (pairs : list (string * string))
  : list string :=
  omap (fun pair => if decide (pair.1 = name) then Some pair.2 else None) pairs.

(** An outbound call as lines 55-67 make it: to the chart endpoint of the
    upstream host, with the browser's user agent, certificates not
    verified, ten seconds to answer. *)
Definition chart_call (r : Request) : Prop :=
  PyStr.startswith "https://query1.finance.yahoo.com/v8/finance/chart/" (full_url r) = true
  /\ headers r = [("User-Agent", user_agent)]
  /\ verify_certificates r = false
  /\ timeout r = 10.

(** A header block that ends with the three CORS headers. *)
Definition closes_with_cors (o : output) : Prop :=
  match o with
  | Head lines => exists before, lines = before ++ cors_headers
  | Body _ => True
  end.

(** The handler once a header block has gone out. *)
Definition with_head (lines : list line) (self : handler) : handler :=
  set_headers_buffer [] (set_wfile (wfile self ++ [Head lines]) self).

(** What the base class stamps on a response is within latin-1 (it is
    ASCII): the server version, the date, the short messages. *)
Definition stamps_encode : Prop :=
  PyStr.latin_1 version_string = true
  /\ PyStr.latin_1 date_time_string = true
  /\ forall code, PyStr.latin_1 (short_message code) = true.


(** A step keeps an invariant of the handler. *)
Definition preserves (I : handler -> Prop) (f : step) : Prop :=
  forall self, I self -> I (f self).2.

(** ** Properties *)

(** *** Strings *)

Lemma append_nil s : EmptyString +:+ s = s.
Proof. reflexivity. Qed.

Lemma append_cons c s t : String c s +:+ t = String c (s +:+ t).
Proof. reflexivity. Qed.

Lemma split_unfold sep s :
  PyStr.split sep s
  = (PyStr.split_pieces sep s).1 :: (PyStr.split_pieces sep s).2.
Proof. unfold PyStr.split. by destruct (PyStr.split_pieces sep s). Qed.

Lemma split_no_separator sep s :
  PyStr.contains sep s = false -> PyStr.split sep s = [s].
Proof.
  rewrite split_unfold. induction s as [|c s IH]; simpl; [done|].
  intros [Hc Hs]%orb_false_iff. specialize (IH Hs).
  destruct (PyStr.split_pieces sep s) as [piece pieces].
  rewrite Hc. simpl in *. congruence.
Qed.

(** The pieces of [base ? rest]: [base] comes first when it holds no
    separator. *)
Lemma split_separator sep base rest :
  PyStr.contains sep base = false ->
  PyStr.split sep (base +:+ String sep rest) = base :: PyStr.split sep rest.
Proof.
  rewrite !split_unfold. induction base as [|c base IH]; simpl.
  - intros _. destruct (PyStr.split_pieces sep rest). by rewrite Ascii.eqb_refl.
  - intros [Hc Hs]%orb_false_iff. specialize (IH Hs).
    destruct (PyStr.split_pieces sep (base +:+ String sep rest)).
    rewrite Hc. simpl in *. congruence.
Qed.

Lemma startswith_app prefix s : PyStr.startswith prefix (prefix +:+ s) = true.
Proof.
  induction prefix as [|c prefix IH]; simpl; [done|].
  by rewrite Ascii.eqb_refl, IH.
Qed.

Lemma startswith_inv prefix s :
  PyStr.startswith prefix s = true -> exists rest, s = prefix +:+ rest.
Proof.
  revert s. induction prefix as [|c prefix IH]; intros s; simpl.
  - by exists s.
  - destruct s as [|b s]; [done|].
    intros [Hc Hs]%andb_true_iff. apply Ascii.eqb_eq in Hc as ->.
    destruct (IH _ Hs) as [rest ->]. by exists rest.
Qed.

Lemma split_cons sep c s :
  PyStr.split sep (String c s)
  = if Ascii.eqb c sep then EmptyString :: PyStr.split sep s
    else match PyStr.split sep s with
         | piece :: pieces => String c piece :: pieces
         | [] => []
         end.
Proof.
  rewrite !split_unfold. simpl. destruct (PyStr.split_pieces sep s).
  by destruct (Ascii.eqb c sep).
Qed.

(** The first piece is a prefix of the string. *)
Lemma split_head_prefix sep s piece pieces :
  PyStr.split sep s = piece :: pieces -> exists rest, s = piece +:+ rest.
Proof.
  revert piece pieces. induction s as [|c s IH]; intros piece pieces.
  - intros [= <- <-]. by exists EmptyString.
  - rewrite split_cons. destruct (Ascii.eqb c sep).
    + intros [= <- <-]. by eexists.
    + destruct (PyStr.split sep s) as [|piece' pieces'] eqn:Hs; [done|].
      intros [= <- <-]. destruct (IH _ _ eq_refl) as [rest ->]. by exists rest.
Qed.

(** Text appended to [s] goes on with the last piece of [s]. *)
Lemma split_app sep s u u1 us :
  PyStr.split sep u = u1 :: us ->
  exists init last,
    PyStr.split sep s = init ++ [last]
    /\ PyStr.split sep (s +:+ u) = init ++ (last +:+ u1) :: us.
Proof.
  intros Hu. induction s as [|c s (init & last & Hs & Hsu)].
  - exists [], EmptyString. by rewrite !append_nil, Hu.
  - rewrite append_cons, !split_cons, Hs, Hsu.
    destruct (Ascii.eqb c sep).
    + by exists (EmptyString :: init), last.
    + destruct init as [|piece init]; simpl.
      * by exists [], (String c last).
      * by exists (String c piece :: init), last.
Qed.

Lemma split_first_app sep s u piece rest :
  PyStr.split_first sep s = [piece; rest] ->
  PyStr.split_first sep (s +:+ u) = [piece; rest +:+ u].
Proof.
  revert piece. induction s as [|c s IH]; intros piece; [done|].
  rewrite append_cons. simpl.
  destruct (Ascii.eqb c sep); [by intros [= <- <-]|].
  destruct (PyStr.split_first sep s) as [|piece' [|rest' [|]]]; try done.
  intros [= <- <-]. by rewrite (IH piece').
Qed.



(** *** Query strings *)

Lemma parse_qs_values_nonempty (l : list (string * string))
    (m : gmap string (list string)) :
  (forall k vs, m !! k = Some vs -> vs <> []) ->
  forall k vs, foldl parse_qs_pair m l !! k = Some vs -> vs <> [].
Proof.
  revert m. induction l as [|[name value] l IH]; intros m Hm; simpl; [done|].
  apply IH. intros k vs.
  destruct (m !! name) as [values|] eqn:Hname;
    (destruct (decide (name = k)) as [->|Hne];
      [rewrite lookup_insert_eq | rewrite lookup_insert_ne by done; apply Hm]).
  - intros [= <-]. by destruct values.
  - by intros [= <-].
Qed.

Lemma parse_qs_absent (l : list (string * string))
    (m : gmap string (list string)) (k : string) :
  m !! k = None -> (forall v, (k, v) ∉ l) ->
  foldl parse_qs_pair m l !! k = None.
Proof.
  revert m. induction l as [|[name value] l IH]; intros m Hm Hl; simpl; [done|].
  assert (name <> k) as Hne.
  { intros ->. apply (Hl value). left. }
  apply IH.
  - destruct (m !! name); by rewrite lookup_insert_ne.
  - intros v Hv. apply (Hl v). by right.
Qed.

(** The loop of [parse_qsl] only appends. *)
Lemma parse_qsl_field_app r name_value :
  parse_qsl_field unquote_escapes r name_value
  = r ++ parse_qsl_field unquote_escapes [] name_value.
Proof.
  unfold parse_qsl_field. destruct name_value as [|c name_value].
  - by rewrite app_nil_r.
  - destruct (PyStr.split_first _ _) as [|nv0 [|nv1 [|]]];
      rewrite ?app_nil_r; try done.
    destruct nv1; by rewrite ?app_nil_r.
Qed.

Lemma parse_qsl_fields r query_args :
  foldl (parse_qsl_field unquote_escapes) r query_args
  = r ++ (query_args ≫= parse_qsl_field unquote_escapes []).
Proof.
  revert r. induction query_args as [|name_value query_args IH]; intros r; simpl.
  - by rewrite app_nil_r.
  - by rewrite IH, parse_qsl_field_app, <- app_assoc.
Qed.

(** A field that gives a pair still gives one, of the same name, when
    text is appended to it: the text goes into the value. *)
Lemma parse_qsl_field_extended name_value u name value :
  (name, value) ∈ parse_qsl_field unquote_escapes [] name_value ->
  exists value',
    (name, value') ∈ parse_qsl_field unquote_escapes [] (name_value +:+ u).
Proof.
  unfold parse_qsl_field.
  destruct name_value as [|c name_value]; [by intros ?%elem_of_nil|].
  destruct (PyStr.split_first "=" (String c name_value))
    as [|nv0 [|nv1 [|]]] eqn:Hnv; try by intros ?%elem_of_nil.
  destruct nv1 as [|d nv1]; [by intros ?%elem_of_nil|].
  intros [= -> _]%list_elem_of_singleton.
  rewrite (split_first_app _ _ u _ _ Hnv). simpl.
  eexists. by apply list_elem_of_singleton.
Qed.

(** So does a query string: a name it has, it keeps when it goes on. *)
Lemma parse_qsl_extended qs u name value :
  (name, value) ∈ parse_qsl unquote_escapes qs ->
  exists value', (name, value') ∈ parse_qsl unquote_escapes (qs +:+ u).
Proof.
  unfold parse_qsl. destruct qs as [|c qs]; [by intros ?%elem_of_nil|].
  rewrite append_cons, !parse_qsl_fields. simpl app.
  destruct (PyStr.split "&" u) as [|u1 us] eqn:Hu;
    [by rewrite split_unfold in Hu|].
  destruct (split_app "&" (String c qs) u u1 us Hu) as (init & last & Hs & Hsu).
  rewrite append_cons in Hsu. rewrite Hs, Hsu, !bind_app.
  intros [Hin|Hin]%elem_of_app.
  - exists value. apply elem_of_app. by left.
  - simpl in Hin. rewrite app_nil_r in Hin.
    destruct (parse_qsl_field_extended _ u1 _ _ Hin) as [value' Hin'].
    exists value'. apply elem_of_app. right. simpl. apply elem_of_app. by left.
Qed.

Lemma index_period_total (params : gmap string (list string)) :
  (forall k vs, params !! k = Some vs -> vs <> []) ->
  exists period, index (default ["1d"] (params !! "period")) 0 = inr period.
Proof.
  intros Hp. destruct (params !! "period") as [vs|] eqn:Hk; simpl.
  - destruct vs as [|v vs]; [by apply Hp in Hk|]. by exists v.
  - by eexists.
Qed.

(** The lines before [urlopen] never raise. *)
Lemma symbol_and_period_total p :
  exists symbol period, symbol_and_period p = inr (symbol, period).
Proof.
  unfold symbol_and_period. rewrite split_unfold. simpl.
  destruct (PyStr.split_pieces "?" p) as [part0 parts]. simpl.
  destruct parts as [|part1 parts]; simpl; [by eauto|].
  destruct (index_period_total (parse_qs unquote_escapes part1)) as [period Hp].
  { apply parse_qs_values_nonempty. intros k vs. by rewrite lookup_empty. }
  rewrite Hp. by eauto.
Qed.

(** *** Encoding *)

Lemma isascii_app a b :
  PyStr.isascii (a +:+ b) = PyStr.isascii a && PyStr.isascii b.
Proof.
  induction a as [|c a IH]; [done|].
  rewrite append_cons. simpl. by rewrite IH, andb_assoc.
Qed.

Lemma latin_1_scan_ascii s :
  PyStr.isascii s = true -> PyStr.latin_1_scan false s = true.
Proof.
  induction s as [|c s IH]; [done|].
  simpl. intros [Hc Hs]%andb_true_iff. rewrite Hc. by apply IH.
Qed.

(** ASCII text in front, and ASCII text behind, change nothing to
    whether a text can be encoded. *)
Lemma latin_1_ascii_app a b :
  PyStr.isascii a = true -> PyStr.latin_1 (a +:+ b) = PyStr.latin_1 b.
Proof.
  unfold PyStr.latin_1. induction a as [|c a IH]; [done|].
  rewrite append_cons. simpl. intros [Hc Ha]%andb_true_iff.
  rewrite Hc. by apply IH.
Qed.

Lemma continuation_ascii c :
  (N_of_ascii c <? 128)%N = true -> PyStr.continuation c = false.
Proof.
  unfold PyStr.continuation. intros Hc%N.ltb_lt.
  apply andb_false_iff. left. apply N.leb_gt. lia.
Qed.

Lemma latin_1_scan_app_ascii pending a b :
  PyStr.isascii b = true ->
  PyStr.latin_1_scan pending (a +:+ b) = PyStr.latin_1_scan pending a.
Proof.
  intros Hb. revert pending. induction a as [|c a IH]; intros pending.
  - rewrite append_nil. destruct pending.
    + destruct b as [|d b]; [done|]. simpl in *.
      apply andb_true_iff in Hb as [Hd _]. by rewrite (continuation_ascii _ Hd).
    + by apply latin_1_scan_ascii.
  - rewrite append_cons. simpl. by rewrite !IH.
Qed.

Lemma latin_1_app_ascii a b :
  PyStr.isascii b = true -> PyStr.latin_1 (a +:+ b) = PyStr.latin_1 a.
Proof. apply latin_1_scan_app_ascii. Qed.

Lemma latin_1_ascii s : PyStr.isascii s = true -> PyStr.latin_1 s = true.
Proof. apply latin_1_scan_ascii. Qed.

(** Numbers are printed in ASCII. *)
Lemma isascii_pretty_N_go x s :
  PyStr.isascii s = true -> PyStr.isascii (pretty_N_go x s) = true.
Proof.
  revert s. induction (N.lt_wf_0 x) as [x _ IH]; intros s Hs.
  assert (x = 0 \/ 0 < x)%N as [->|Hx] by lia.
  - by rewrite pretty_N_go_0.
  - rewrite pretty_N_go_step by done. apply IH; [by apply N.div_lt|].
    simpl. rewrite Hs, andb_true_r.
    unfold pretty_N_char. by repeat case_match.
Qed.

Lemma isascii_pretty_N (x : N) : PyStr.isascii (pretty x) = true.
Proof.
  unfold pretty, pretty_N. case_decide; [done|]. by apply isascii_pretty_N_go.
Qed.

Lemma isascii_pretty_nat (n : nat) : PyStr.isascii (pretty n) = true.
Proof. apply isascii_pretty_N. Qed.

Lemma isascii_pretty_Z (z : Z) : PyStr.isascii (pretty z) = true.
Proof.
  destruct z as [|p|p]; [done| |].
  - apply (isascii_pretty_N (N.pos p)).
  - change (PyStr.isascii ("-" +:+ pretty (N.pos p)) = true).
    by rewrite isascii_app, isascii_pretty_N.
Qed.

(** A status line can be encoded when its message can, a header line
    with an ASCII keyword when its value can. *)
Lemma status_line_latin_1 code message :
  PyStr.latin_1 (status_line_text code message) = PyStr.latin_1 message.
Proof.
  unfold status_line_text.
  rewrite (latin_1_ascii_app "HTTP/1.0 ") by done.
  rewrite (latin_1_ascii_app (pretty code)) by apply isascii_pretty_Z.
  rewrite (latin_1_ascii_app " ") by done.
  by apply latin_1_app_ascii.
Qed.

Lemma header_line_latin_1 keyword value :
  PyStr.isascii keyword = true ->
  PyStr.latin_1 (header_line_text keyword value) = PyStr.latin_1 value.
Proof.
  intros Hk. unfold header_line_text.
  rewrite (latin_1_ascii_app keyword) by done.
  rewrite (latin_1_ascii_app ": ") by done.
  by apply latin_1_app_ascii.
Qed.

(** *** The calls of the base class, for HTTP/1.0 and later *)

Lemma modern_eqb self :
  request_version self <> "HTTP/0.9" ->
  String.eqb (request_version self) "HTTP/0.9" = false.
Proof. intros H. by apply String.eqb_neq. Qed.

Lemma send_response_only_modern code message self :
  request_version self <> "HTTP/0.9" ->
  PyStr.latin_1 (default (short_message code) message) = true ->
  send_response_only code message self
  = (None, set_headers_buffer
             (headers_buffer self
                ++ [StatusLine code (default (short_message code) message)]) self).
Proof.
  intros Hv Hm. unfold send_response_only.
  by rewrite (modern_eqb _ Hv), status_line_latin_1, Hm.
Qed.

Lemma send_response_only_refused code message self :
  request_version self <> "HTTP/0.9" ->
  PyStr.latin_1 (default (short_message code) message) = false ->
  send_response_only code message self
  = (Some (Exception (encode_error
       (status_line_text code (default (short_message code) message)))), self).
Proof.
  intros Hv Hm. unfold send_response_only.
  by rewrite (modern_eqb _ Hv), status_line_latin_1, Hm.
Qed.

Lemma send_header_modern keyword value self :
  request_version self <> "HTTP/0.9" ->
  PyStr.isascii keyword = true ->
  PyStr.latin_1 value = true ->
  send_header keyword value self
  = (None, set_headers_buffer
             (headers_buffer self ++ [Header keyword value]) self).
Proof.
  intros Hv Hk Hm. unfold send_header.
  by rewrite (modern_eqb _ Hv), (header_line_latin_1 _ _ Hk), Hm.
Qed.

Lemma send_response_modern code message self :
  request_version self <> "HTTP/0.9" ->
  PyStr.latin_1 (default (short_message code) message) = true ->
  PyStr.latin_1 version_string = true ->
  PyStr.latin_1 date_time_string = true ->
  send_response code message self
  = (None, set_headers_buffer
             (headers_buffer self
                ++ [ StatusLine code (default (short_message code) message);
                     Header "Server" version_string;
                     Header "Date" date_time_string ]) self).
Proof.
  intros Hv Hm Hs Hd. unfold send_response. cbn [sequence].
  rewrite (send_response_only_modern _ _ _ Hv Hm).
  rewrite send_header_modern by done.
  rewrite send_header_modern by done.
  unfold set_headers_buffer. simpl. by rewrite <- !app_assoc.
Qed.

Lemma end_headers_modern self :
  request_version self <> "HTTP/0.9" ->
  end_headers self = (None, with_head (headers_buffer self ++ cors_headers) self).
Proof.
  intros Hv. unfold end_headers. cbn [sequence].
  do 3 rewrite send_header_modern by done.
  unfold BaseHTTPRequestHandler_end_headers. cbn [request_version set_headers_buffer].
  rewrite (modern_eqb _ Hv).
  unfold with_head, flush_headers, set_headers_buffer, set_wfile. simpl.
  by rewrite <- !app_assoc.
Qed.

(** *** The calls of the base class, for HTTP/0.9 *)

Lemma send_response_only_0_9 code message self :
  request_version self = "HTTP/0.9" ->
  send_response_only code message self = (None, self).
Proof. intros Hv. unfold send_response_only. by rewrite Hv. Qed.

Lemma send_header_0_9 keyword value self :
  request_version self = "HTTP/0.9" ->
  send_header keyword value self = (None, self).
Proof. intros Hv. unfold send_header. by rewrite Hv. Qed.

Lemma send_response_0_9 code message self :
  request_version self = "HTTP/0.9" ->
  send_response code message self = (None, self).
Proof.
  intros Hv. unfold send_response. cbn [sequence].
  by rewrite send_response_only_0_9, !send_header_0_9.
Qed.

Lemma end_headers_0_9 self :
  request_version self = "HTTP/0.9" -> end_headers self = (None, self).
Proof.
  intros Hv. unfold end_headers. cbn [sequence].
  rewrite !send_header_0_9 by done.
  unfold BaseHTTPRequestHandler_end_headers. by rewrite Hv.
Qed.

(** *** [send_error] *)

Lemma carries_cors_flushed buffer : carries_cors (Head (buffer ++ cors_headers)).
Proof.
  simpl. unfold cors_headers.
  repeat constructor; apply elem_of_app; right; solve [repeat constructor].
Qed.

(** On a request of HTTP/1.0 or later, with a message that can be
    encoded, [send_error] writes one response: a header block where the
    status line follows what was buffered, closed by the CORS headers,
    then the error page if there is one. *)
Lemma send_error_modern code message explain self :
  request_version self <> "HTTP/0.9" ->
  PyStr.latin_1 message = true ->
  PyStr.latin_1 version_string = true ->
  PyStr.latin_1 date_time_string = true ->
  exists lines body self',
    send_error code (Some message) explain self = (None, self')
    /\ wfile self'
       = wfile self
           ++ Head (headers_buffer self ++ StatusLine code message :: lines) :: body
    /\ Forall is_body body
    /\ Forall (fun h => h ∈ StatusLine code message :: lines) cors_headers
    /\ headers_buffer self' = []
    /\ outbound self' = outbound self.
Proof.
  intros Hv Hm Hs Hd. unfold send_error.
  destruct (default _ (responses code)) as [shortmsg longmsg].
  cbn [sequence default].
  rewrite (send_response_modern code (Some message)) by done.
  rewrite send_header_modern by done.
  pose proof carries_cors_flushed as Hcors. cbn [carries_cors] in Hcors.
  destruct (has_body code).
  - cbn [sequence].
    rewrite send_header_modern by done.
    rewrite send_header_modern
      by (try apply latin_1_ascii, isascii_pretty_nat; done).
    rewrite end_headers_modern by done.
    match goal with
    | |- context [if ?b then _ else _] => destruct b
    end; cbn [sequence returns];
      (eexists _, _, _; split; [reflexivity|]); cbn; rewrite <- !app_assoc; cbn;
      (split; [reflexivity|]); (split; [by repeat constructor|]);
      (split; [|done]);
      apply (Hcors [StatusLine code message; Header "Server" version_string;
                    Header "Date" date_time_string; Header "Connection" "close";
                    Header "Content-Type" "text/html;charset=utf-8";
                    Header "Content-Length" _]).
  - cbn [sequence]. rewrite end_headers_modern by done. cbn [sequence].
    eexists _, [], _. split; [reflexivity|]. cbn. rewrite <- !app_assoc. cbn.
    split; [reflexivity|]. split; [constructor|]. split; [|done].
    apply (Hcors [StatusLine code message; Header "Server" version_string;
                  Header "Date" date_time_string; Header "Connection" "close"]).
Qed.

(** With a message that cannot be encoded it raises at once: nothing is
    buffered, nothing is written. *)
Lemma send_error_refused code message explain self :
  request_version self <> "HTTP/0.9" ->
  PyStr.latin_1 message = false ->
  send_error code (Some message) explain self
  = (Some (Exception (encode_error (status_line_text code message))), self).
Proof.
  intros Hv Hm. unfold send_error.
  destruct (default _ (responses code)) as [shortmsg longmsg].
  cbn [sequence default]. unfold send_response, id. cbn [sequence].
  by rewrite (send_response_only_refused code (Some message) _ Hv Hm).
Qed.

(** *** What the calls keep *)

Lemma preserves_sequence I steps :
  Forall (preserves I) steps -> preserves I (sequence steps).
Proof.
  induction 1 as [|f steps Hf _ IH]; intros self HI; [done|].
  cbn [sequence]. specialize (Hf self HI).
  destruct (f self) as [[e|] self']; [done|]. by apply IH.
Qed.

Lemma end_headers_cases self :
  end_headers self
  = (None, if String.eqb (request_version self) "HTTP/0.9" then self
           else with_head (headers_buffer self ++ cors_headers) self).
Proof.
  destruct (String.eqb (request_version self) "HTTP/0.9") eqn:Hv.
  - apply String.eqb_eq in Hv. by apply end_headers_0_9.
  - apply String.eqb_neq in Hv. by apply end_headers_modern.
Qed.

Section Kept.

(** An invariant that buffering a line and writing a body piece keep,
    and that flushing a header block closed by the CORS headers keeps. *)
Variable I : handler -> Prop.
Hypothesis I_buffer : forall b self, I self -> I (set_headers_buffer b self).
Hypothesis I_body : forall data self, I self -> I (wfile_write data self).
Hypothesis I_head :
  forall buffer self, I self -> I (with_head (buffer ++ cors_headers) self).
Hypothesis I_uncaught : forall e self, I self -> I (set_uncaught e self).

Lemma send_response_only_kept code message :
  preserves I (send_response_only code message).
Proof using I_buffer I_body I_head I_uncaught.
  intros self HI. unfold send_response_only.
  destruct (String.eqb _ _); [done|]. destruct (PyStr.latin_1 _); [|done].
  by apply I_buffer.
Qed.

Lemma send_header_kept keyword value : preserves I (send_header keyword value).
Proof using I_buffer I_body I_head I_uncaught.
  intros self HI. unfold send_header.
  destruct (String.eqb _ _); [done|]. destruct (PyStr.latin_1 _); [|done].
  by apply I_buffer.
Qed.

Lemma send_response_kept code message : preserves I (send_response code message).
Proof using I_buffer I_body I_head I_uncaught.
  apply preserves_sequence.
  repeat constructor; auto using send_response_only_kept, send_header_kept.
Qed.

Lemma end_headers_kept : preserves I end_headers.
Proof using I_buffer I_body I_head I_uncaught.
  intros self HI. rewrite end_headers_cases. simpl.
  destruct (String.eqb _ _); [done|]. by apply I_head.
Qed.

Lemma wfile_write_kept data : preserves I (returns (wfile_write data)).
Proof using I_buffer I_body I_head I_uncaught. intros self HI. by apply I_body. Qed.

Lemma send_error_kept code message explain :
  preserves I (send_error code message explain).
Proof using I_buffer I_body I_head I_uncaught.
  intros self HI. unfold send_error.
  destruct (default _ (responses code)) as [shortmsg longmsg].
  apply preserves_sequence; [|done].
  repeat constructor;
    auto using send_response_kept, send_header_kept, end_headers_kept.
  - destruct (has_body code); apply preserves_sequence;
      repeat constructor; auto using send_header_kept.
  - destruct (has_body code); [destruct (negb _ && negb _)|];
      try apply wfile_write_kept; by apply (preserves_sequence I []).
Qed.

Lemma run_call_kept c : preserves I (run_call c).
Proof using I_buffer I_body I_head I_uncaught.
  destruct c; simpl;
    auto using send_response_kept, send_response_only_kept, send_header_kept,
      end_headers_kept, send_error_kept, wfile_write_kept.
Qed.

Lemma run_kept calls self : I self -> I (run calls self).
Proof using I_buffer I_body I_head I_uncaught.
  intros HI. unfold run, finish. apply I_uncaught.
  apply preserves_sequence; [|done].
  apply Forall_fmap, Forall_forall. intros c _. apply run_call_kept.
Qed.

Lemma do_OPTIONS_kept self : I self -> I (do_OPTIONS self).
Proof using I_buffer I_body I_head I_uncaught.
  intros HI. unfold do_OPTIONS, finish. apply I_uncaught.
  apply preserves_sequence; [|done].
  repeat constructor; auto using send_response_kept, end_headers_kept.
Qed.

(** The proxy besides adds its outbound call. *)
Lemma handle_api_request_kept self :
  (forall o self, I self -> I (set_outbound o self)) ->
  I self -> I (handle_api_request self).
Proof using I_buffer I_body I_head I_uncaught.
  intros I_outbound HI. unfold handle_api_request, finish, try_quote.
  apply I_uncaught.
  destruct (symbol_and_period (path self)) as [e|[symbol period]].
  - destruct e; by apply send_error_kept.
  - destruct (urlopen _ _) as [data|e].
    + match goal with
      | |- context [sequence ?steps ?s] =>
          assert (I (sequence steps s).2) as Hs
      end.
      { apply preserves_sequence; [|by apply I_outbound].
        repeat constructor;
          auto using send_response_kept, send_header_kept, end_headers_kept,
            wfile_write_kept. }
      destruct (sequence _ _) as [[[code reason|reason|text]|] self'];
        simpl in Hs; try done; by apply send_error_kept.
    + destruct e; apply send_error_kept; by apply I_outbound.
Qed.

End Kept.

(** *** What the send/flush calls leave alone *)

Lemma send_error_outbound code message explain self :
  outbound (send_error code message explain self).2 = outbound self.
Proof. by apply (send_error_kept (fun s => outbound s = outbound self)). Qed.

Lemma run_outbound calls self : outbound (run calls self) = outbound self.
Proof. by apply (run_kept (fun s => outbound s = outbound self)). Qed.

(** *** The outbound call *)

(** The statements of the [try] behind [urlopen] make no outbound call. *)
Lemma answer_outbound data self :
  outbound
    (sequence
       [ send_response 200 None;
         send_header "Content-Type" "application/json";
         end_headers;
         returns (wfile_write data) ] self).2
  = outbound self.
Proof.
  apply (preserves_sequence (fun s => outbound s = outbound self)); [|done].
  repeat constructor.
  - by apply send_response_kept.
  - by apply send_header_kept.
  - by apply end_headers_kept.
  - by apply wfile_write_kept.
Qed.

(** The handler makes one outbound call, for the chart of the symbol. *)
Lemma handle_api_request_outbound self symbol period :
  symbol_and_period (path self) = inr (symbol, period) ->
  outbound (handle_api_request self)
  = outbound self ++ [chart_request (chart_url symbol (interval_of period) period)].
Proof.
  intros Hsp. unfold handle_api_request, finish, try_quote. rewrite Hsp.
  cbn [outbound set_uncaught].
  destruct (urlopen _ _) as [data|e].
  - match goal with
    | |- context [sequence ?steps ?s] =>
        pose proof (answer_outbound data s) as Hs;
        destruct (sequence steps s) as [[[code reason|reason|text]|] self']
    end; cbn [snd] in *; rewrite ?send_error_outbound; by rewrite Hs.
  - by destruct e; rewrite send_error_outbound.
Qed.

(** What the handler does once the outbound call has raised. *)
Lemma handle_api_request_raises self symbol period e :
  symbol_and_period (path self) = inr (symbol, period) ->
  urlopen (length (outbound self))
    (chart_request (chart_url symbol (interval_of period) period)) = Raises e ->
  handle_api_request self
  = let self' :=
      set_outbound
        (outbound self ++ [chart_request (chart_url symbol (interval_of period) period)])
        self in
    finish
      match e with
      | HTTPError code reason =>
          send_error code (Some ("API Error: " +:+ reason)) None self'
      | URLError reason =>
          send_error 500 (Some ("Connection Error: " +:+ reason)) None self'
      | Exception text =>
          send_error 500 (Some ("Server Error: " +:+ text)) None self'
      end.
Proof.
  intros Hsp Hu. unfold handle_api_request, try_quote. rewrite Hsp. simpl.
  rewrite Hu. by destruct e.
Qed.

(** The response of the proxy to an outbound call that raised, when the
    message of the response can be encoded. *)
Lemma error_reply code message self :
  request_version self <> "HTTP/0.9" ->
  stamps_encode ->
  headers_buffer self = [] ->
  PyStr.latin_1 message = true ->
  forall o,
    responds (wfile self)
      (wfile (finish (send_error code (Some message) None (set_outbound o self))))
      code message
    /\ headers_buffer (finish (send_error code (Some message) None (set_outbound o self))) = []
    /\ uncaught (finish (send_error code (Some message) None (set_outbound o self))) = None.
Proof.
  intros Hv (Hs & Hd & _) Hb Hm o.
  destruct (send_error_modern code message None (set_outbound o self))
    as (lines & body & self' & -> & Hw & Hbody & _ & Hbuf & _); try done.
  cbn in *. rewrite Hb in Hw. split; [|done]. by exists lines, body.
Qed.

(** *** The claims *)

(** C1. On a request of HTTP/1.0 or later, when the outbound call of a
    quote request succeeds, the handler writes one response: status 200,
    the header [Content-Type: application/json] (after [Server] and
    [Date], before the CORS headers), then the bytes read from the
    upstream, as they are, and nothing else. *)
Theorem quote_success self symbol period data :
  request_version self <> "HTTP/0.9" ->
  stamps_encode ->
  headers_buffer self = [] ->
  symbol_and_period (path self) = inr (symbol, period) ->
  urlopen (length (outbound self))
    (chart_request (chart_url symbol (interval_of period) period)) = Returns data ->
  wfile (handle_api_request self)
  = wfile self ++
    [ Head ([ StatusLine 200 (short_message 200);
              Header "Server" version_string;
              Header "Date" date_time_string;
              Header "Content-Type" "application/json" ] ++ cors_headers);
      Body data ].
Proof.
  intros Hv (Hs & Hd & Hm) Hb Hsp Hu.
  unfold handle_api_request, try_quote. rewrite Hsp. cbn zeta. rewrite Hu.
  cbn [sequence].
  rewrite (send_response_modern 200 None) by (done || apply Hm).
  rewrite send_header_modern by done.
  rewrite end_headers_modern by done.
  cbn. rewrite Hb. cbn. by rewrite <- app_assoc.
Qed.

(** C2. The interval of a period is the one of the table: 1d gives 5m,
    5d gives 15m, 1mo, 3mo and 6mo give 1d, 1y gives 1wk; a period that
    is not in the table gives 1d. *)
Theorem interval_of_table :
  interval_of "1d" = "5m" /\ interval_of "5d" = "15m"
  /\ interval_of "1mo" = "1d" /\ interval_of "3mo" = "1d"
  /\ interval_of "6mo" = "1d" /\ interval_of "1y" = "1wk"
  /\ forall period : string,
       period ∉ ["1d"; "5d"; "1mo"; "3mo"; "6mo"; "1y"] ->
       interval_of period = "1d".
Proof.
  repeat split; try reflexivity.
  intros period Hp. unfold interval_of, interval_map.
  rewrite !not_elem_of_cons in Hp. destruct Hp as (?&?&?&?&?&?&_).
  by rewrite !lookup_insert_ne, lookup_empty by done.
Qed.

(** C3, at the path [/api/quote/A/api/quote/B]: the handler's symbol is
    [AB], every occurrence of the route prefix having been deleted,
    where stripping the leading prefix leaves [A/api/quote/B]. *)
Theorem symbol_of_repeated_prefix :
  symbol_and_period "/api/quote/A/api/quote/B" = inr ("AB", "1d")
  /\ PyStr.removeprefix "/api/quote/" "/api/quote/A/api/quote/B" = "A/api/quote/B".
Proof. split; reflexivity. Qed.


(** The period of a path whose second part has no [period] pair. *)
Lemma period_of_parts p :
  (forall query value,
      PyStr.split "?" p !! 1%nat = Some query ->
      ("period", value) ∉ parse_qsl unquote_escapes query) ->
  symbol_and_period p
  = inr (PyStr.replace "/api/quote/" "" (PyStr.split_pieces "?" p).1, "1d").
Proof.
  unfold symbol_and_period. rewrite split_unfold. simpl.
  destruct (PyStr.split_pieces "?" p).2 as [|part1 parts]; simpl; [done|].
  intros Hk. unfold parse_qs.
  rewrite parse_qs_absent; [done | by rewrite lookup_empty|].
  intros value. by apply Hk.
Qed.

(** C5. A path without query component, and a path whose query
    component (what follows the first [?]) has no [period] key, get the
    period [1d], and with it the interval [5m]. *)
Theorem period_defaults base (query : option string) :
  PyStr.contains "?" base = false ->
  (forall qs value,
      query = Some qs -> ("period", value) ∉ parse_qsl unquote_escapes qs) ->
  symbol_and_period
    (match query with
     | None => base
     | Some qs => base +:+ String "?" qs
     end)
  = inr (PyStr.replace "/api/quote/" "" base, "1d")
  /\ interval_of "1d" = "5m".
Proof.
  intros Hbase Hquery. split; [|reflexivity].
  destruct query as [qs|].
  - rewrite period_of_parts.
    + pose proof (split_separator "?" base qs Hbase) as Hs.
      rewrite !split_unfold in Hs. by injection Hs as -> _.
    + rewrite (split_separator _ _ _ Hbase). simpl.
      destruct (PyStr.split "?" qs) as [|part1 parts] eqn:Hqs; simpl; [done|].
      intros ? value [= <-] Hin.
      destruct (split_head_prefix _ _ _ _ Hqs) as [u ->].
      destruct (parse_qsl_extended _ u _ _ Hin) as [value' Hin'].
      by apply (Hquery _ value' eq_refl).
  - rewrite period_of_parts.
    + pose proof (split_no_separator "?" base Hbase) as Hs.
      rewrite split_unfold in Hs. by injection Hs as -> _.
    + intros ? ?. by rewrite (split_no_separator _ _ Hbase).
Qed.

(** C6. On a request of HTTP/1.0 or later, when the outbound call
    raises [HTTPError] with a reason within latin-1, the handler answers
    with one error response whose status is the code of the upstream and
    whose message is [API Error: ] followed by the reason of the
    upstream; a 404 of the upstream gives a 404. *)
Theorem upstream_http_error self symbol period code reason :
  request_version self <> "HTTP/0.9" ->
  stamps_encode ->
  headers_buffer self = [] ->
  symbol_and_period (path self) = inr (symbol, period) ->
  urlopen (length (outbound self))
    (chart_request (chart_url symbol (interval_of period) period))
    = Raises (HTTPError code reason) ->
  PyStr.latin_1 reason = true ->
  responds (wfile self) (wfile (handle_api_request self))
    code ("API Error: " +:+ reason).
Proof.
  intros Hv Hstamps Hb Hsp Hu Hr.
  rewrite (handle_api_request_raises _ _ _ _ Hsp Hu).
  by apply error_reply.
Qed.


(** *** One header block per response *)















(** C9. [do_OPTIONS] on a request of HTTP/1.0 or later, whatever the
    path, writes one header block with status 200 and no body after
    it. *)
Theorem options_preflight self :
  request_version self <> "HTTP/0.9" ->
  stamps_encode ->
  headers_buffer self = [] ->
  wfile (do_OPTIONS self)
  = wfile self ++
    [ Head ([ StatusLine 200 (short_message 200);
              Header "Server" version_string;
              Header "Date" date_time_string ] ++ cors_headers) ].
Proof.
  intros Hv (Hs & Hd & Hm) Hb. unfold do_OPTIONS. cbn [sequence].
  rewrite (send_response_modern 200 None) by (done || apply Hm).
  rewrite end_headers_modern by done.
  cbn. by rewrite Hb.
Qed.

(** C10. [do_GET] runs the proxy, which makes its outbound call, when
    the path starts with [/api/quote/], and only then: any other path,
    [/api/quote] among them, goes to the static files, and no outbound
    call is made. *)
Theorem do_GET_dispatch self :
  ((exists rest, path self = "/api/quote/" +:+ rest)
   /\ do_GET self = handle_api_request self
   /\ length (outbound (do_GET self)) = S (length (outbound self))
   \/ (~ exists rest, path self = "/api/quote/" +:+ rest)
      /\ do_GET self = run (SimpleHTTPRequestHandler_do_GET self) self
      /\ outbound (do_GET self) = outbound self)
  /\ (path self = "/api/quote" ->
      do_GET self = run (SimpleHTTPRequestHandler_do_GET self) self
      /\ outbound (do_GET self) = outbound self).
Proof.
  split.
  - unfold do_GET. destruct (PyStr.startswith _ _) eqn:Hs.
    + left. split; [by apply startswith_inv|]. split; [done|].
      destruct (symbol_and_period_total (path self)) as (symbol & period & Hsp).
      rewrite (handle_api_request_outbound _ _ _ Hsp), length_app. simpl. lia.
    + right. split; [|by rewrite run_outbound].
      intros [rest Hr]. by rewrite Hr, startswith_app in Hs.
  - intros Hp. unfold do_GET. rewrite Hp.
    change (PyStr.startswith "/api/quote/" "/api/quote") with false.
    cbv iota. by rewrite run_outbound.
Qed.

(** ** Further properties of the handler *)

(** *** Strings, again *)

Lemma append_assoc s t u : (s +:+ t) +:+ u = s +:+ t +:+ u.
Proof. induction s as [|c s IH]; [done|]. by rewrite !append_cons, IH. Qed.

Lemma contains_app c s t :
  PyStr.contains c (s +:+ t) = PyStr.contains c s || PyStr.contains c t.
Proof.
  induction s as [|b s IH]; [done|].
  rewrite append_cons. simpl. by rewrite IH, orb_assoc.
Qed.

(** The first piece of a split holds no separator. *)
Lemma split_head_clean sep s :
  PyStr.contains sep (PyStr.split_pieces sep s).1 = false.
Proof.
  induction s as [|c s IH]; simpl; [done|].
  destruct (PyStr.split_pieces sep s) as [piece pieces].
  destruct (Ascii.eqb c sep) eqn:Hc; simpl in *; [done|]. by rewrite Hc.
Qed.

Lemma split_pieces_head sep base rest :
  PyStr.contains sep base = false ->
  (PyStr.split_pieces sep (base +:+ String sep rest)).1 = base.
Proof.
  intros Hb. pose proof (split_separator sep base rest Hb) as Hs.
  rewrite split_unfold in Hs. congruence.
Qed.

(** Deleting occurrences brings in no character. *)
Lemma replace_scan_delete_contains old c skip s :
  PyStr.contains c s = false ->
  PyStr.contains c (PyStr.replace_scan old EmptyString skip s) = false.
Proof.
  revert skip. induction s as [|b s IH]; intros skip; [done|].
  cbn [PyStr.contains PyStr.replace_scan]. intros [Hb Hs]%orb_false_iff.
  destruct skip as [|skip]; [|by apply IH].
  destruct (PyStr.startswith old (String b s)).
  - rewrite append_nil. by apply IH.
  - cbn [PyStr.contains]. by rewrite Hb, IH.
Qed.



Lemma split_first_separator sep name value :
  PyStr.contains sep name = false ->
  PyStr.split_first sep (name +:+ String sep value) = [name; value].
Proof.
  induction name as [|c name IH].
  - intros _. rewrite append_nil. simpl. by rewrite Ascii.eqb_refl.
  - cbn [PyStr.contains]. intros [Hc Hn]%orb_false_iff.
    rewrite append_cons. simpl. by rewrite Hc, IH.
Qed.

Lemma split_first_no_separator sep s :
  PyStr.contains sep s = false -> PyStr.split_first sep s = [s].
Proof.
  induction s as [|c s IH]; [done|].
  cbn [PyStr.contains]. intros [Hc Hs]%orb_false_iff.
  simpl. by rewrite Hc, IH.
Qed.

(** *** Query strings, again *)

(** What [parse_qs] holds for a name: the values of its pairs, in order,
    behind what the dictionary held before. *)
Lemma parse_qs_lookup (pairs : list (string * string))
    (m : gmap string (list string)) (name : string) :
  foldl parse_qs_pair m pairs !! name
  = match m !! name with
    | Some values => Some (values ++ values_named name pairs)
    | None => match values_named name pairs with
              | [] => None
              | values => Some values
              end
    end.
Proof.
  revert m. induction pairs as [|[n v] pairs IH]; intros m.
  - simpl. destruct (m !! name); by rewrite ?app_nil_r.
  - cbn [foldl]. rewrite IH. unfold values_named. cbn [omap list_omap fst snd].
    destruct (decide (n = name)) as [->|Hne].
    + cbn [parse_qs_pair].
      destruct (m !! name) as [values|]; rewrite lookup_insert_eq.
      * by rewrite <- app_assoc.
      * done.
    + assert (parse_qs_pair m (n, v) !! name = m !! name) as ->; [|done].
      cbn [parse_qs_pair]. destruct (m !! n); by rewrite lookup_insert_ne.
Qed.

(** Lines 32-41 on a path of two parts or more. *)
Lemma symbol_and_period_parts p part0 part1 parts :
  PyStr.split "?" p = part0 :: part1 :: parts ->
  symbol_and_period p
  = inr (PyStr.replace "/api/quote/" "" part0,
         default "1d" (head (values_named "period" (parse_qsl unquote_escapes part1)))).
Proof.
  intros Hp. unfold symbol_and_period. rewrite Hp. simpl. unfold parse_qs.
  rewrite parse_qs_lookup, lookup_empty.
  by destruct (values_named _ _).
Qed.

Lemma split_path_query base qs :
  PyStr.contains "?" base = false -> PyStr.contains "?" qs = false ->
  PyStr.split "?" (base +:+ String "?" qs) = [base; qs].
Proof.
  intros Hb Hq. by rewrite (split_separator _ _ _ Hb), (split_no_separator _ _ Hq).
Qed.

(** A query of one field. *)
Lemma parse_qsl_one_field name_value :
  PyStr.contains "&" name_value = false ->
  parse_qsl unquote_escapes name_value
  = parse_qsl_field unquote_escapes [] name_value.
Proof.
  intros Hf. unfold parse_qsl. destruct name_value as [|c name_value]; [done|].
  by rewrite (split_no_separator _ _ Hf).
Qed.


(** A query of one field without a value, with or without its [=]. *)
Lemma parse_qsl_no_value name :
  PyStr.contains "&" name = false -> PyStr.contains "=" name = false ->
  parse_qsl unquote_escapes name = []
  /\ parse_qsl unquote_escapes (name +:+ "=") = [].
Proof.
  intros Hn1 Hn2. split.
  - rewrite (parse_qsl_one_field _ Hn1). unfold parse_qsl_field.
    rewrite (split_first_no_separator _ _ Hn2). by destruct name.
  - rewrite parse_qsl_one_field.
    + unfold parse_qsl_field. rewrite (split_first_separator _ _ _ Hn2).
      by destruct name.
    + rewrite contains_app. by rewrite Hn1.
Qed.


(** A period outside the table. *)
Lemma interval_of_other period :
  period <> "1d" -> period <> "5d" -> period <> "1mo" -> period <> "3mo" ->
  period <> "6mo" -> period <> "1y" -> interval_of period = "1d".
Proof.
  intros. unfold interval_of, interval_map.
  by rewrite !lookup_insert_ne, lookup_empty by done.
Qed.

(** *** Further properties *)

(** X1. Whatever the period, the interval is one of [5m], [15m], [1d]
    and [1wk]; and [5m] is the interval of [1d] only, [15m] of [5d] only,
    [1wk] of [1y] only. *)
Theorem interval_of_range period :
  interval_of period ∈ ["5m"; "15m"; "1d"; "1wk"]
  /\ (interval_of period = "5m" <-> period = "1d")
  /\ (interval_of period = "15m" <-> period = "5d")
  /\ (interval_of period = "1wk" <-> period = "1y").
Proof.
  destruct (decide (period = "1d")) as [->|?];
    [|destruct (decide (period = "5d")) as [->|?];
      [|destruct (decide (period = "1mo")) as [->|?];
        [|destruct (decide (period = "3mo")) as [->|?];
          [|destruct (decide (period = "6mo")) as [->|?];
            [|destruct (decide (period = "1y")) as [->|?]]]]]].
  1-6: split; [vm_compute; solve [repeat constructor]
              | repeat split; vm_compute; intros [=]; reflexivity].
  rewrite interval_of_other by done.
  split; [solve [repeat constructor] | repeat split; intros ?; by simplify_eq].
Qed.

(** X2. On a request of HTTP/1.0 or later and an empty header buffer,
    the proxy makes one outbound call, whatever the path, and then
    answers once or not at all.  When the call returns it writes one
    response of status 200.  When the call raises it writes one response
    with the code of the upstream ([HTTPError]) or 500 and the message of
    its [except] clause, provided that message is within latin-1;
    otherwise [send_error] raises [UnicodeEncodeError], nothing is
    written, and the exception leaves the handler.  In every case no
    header is left in the buffer. *)
Theorem proxy_answers_once self :
  request_version self <> "HTTP/0.9" ->
  stamps_encode ->
  headers_buffer self = [] ->
  exists symbol period,
    symbol_and_period (path self) = inr (symbol, period)
    /\ outbound (handle_api_request self)
       = outbound self ++ [chart_request (chart_url symbol (interval_of period) period)]
    /\ headers_buffer (handle_api_request self) = []
    /\ match urlopen (length (outbound self))
                (chart_request (chart_url symbol (interval_of period) period)) with
       | Returns _ =>
           responds (wfile self) (wfile (handle_api_request self))
             200 (short_message 200)
           /\ uncaught (handle_api_request self) = None
       | Raises e =>
           let '(code, message) :=
             match e with
             | HTTPError code reason => (code, "API Error: " +:+ reason)
             | URLError reason => (500, "Connection Error: " +:+ reason)
             | Exception text => (500, "Server Error: " +:+ text)
             end in
           if PyStr.latin_1 message
           then responds (wfile self) (wfile (handle_api_request self)) code message
                /\ uncaught (handle_api_request self) = None
           else wfile (handle_api_request self) = wfile self
                /\ uncaught (handle_api_request self)
                   = Some (Exception (encode_error (status_line_text code message)))
       end.
Proof.
  intros Hv Hstamps Hb.
  destruct (symbol_and_period_total (path self)) as (symbol & period & Hsp).
  exists symbol, period. split; [done|].
  split; [by apply handle_api_request_outbound|].
  assert (forall code message,
    let after :=
      finish (send_error code (Some message) None
                (set_outbound
                   (outbound self ++
                      [chart_request (chart_url symbol (interval_of period) period)])
                   self)) in
    headers_buffer after = []
    /\ if PyStr.latin_1 message
       then responds (wfile self) (wfile after) code message /\ uncaught after = None
       else wfile after = wfile self
            /\ uncaught after
               = Some (Exception (encode_error (status_line_text code message))))
    as Herror.
  { intros code message after. subst after.
    destruct (PyStr.latin_1 message) eqn:Hm.
    - destruct (error_reply code message self Hv Hstamps Hb Hm
                  (outbound self ++
                     [chart_request (chart_url symbol (interval_of period) period)]))
        as (Hr & Hbuf & Hun). done.
    - by rewrite send_error_refused. }
  destruct (urlopen (length (outbound self))
              (chart_request (chart_url symbol (interval_of period) period)))
    as [data|e] eqn:Hu.
  - destruct Hstamps as (Hs & Hd & Hm).
    unfold handle_api_request, try_quote. rewrite Hsp. cbn zeta. rewrite Hu.
    cbn [sequence].
    rewrite (send_response_modern 200 None) by (done || apply Hm).
    rewrite send_header_modern by done.
    rewrite end_headers_modern by done.
    cbn. rewrite Hb. cbn. rewrite <- app_assoc.
    split; [done|]. split; [|done].
    eexists _, [_]. split; [reflexivity | by repeat constructor].
  - rewrite (handle_api_request_raises _ _ _ _ Hsp Hu). cbn zeta.
    destruct e as [code reason|reason|text]; by apply Herror.
Qed.


(** X4. When the query (between the first [?] and the end of the path)
    names [period] several times, the first pair that has a value gives
    the period; when no pair does, the period is [1d]. *)
Theorem first_period_wins base qs :
  PyStr.contains "?" base = false ->
  PyStr.contains "?" qs = false ->
  symbol_and_period (base +:+ String "?" qs)
  = inr (PyStr.replace "/api/quote/" "" base,
         default "1d" (head (values_named "period" (parse_qsl unquote_escapes qs)))).
Proof.
  intros Hb Hq. apply (symbol_and_period_parts _ base qs []).
  by apply split_path_query.
Qed.

(** X5. What follows a second [?] in the path is ignored: neither the
    symbol nor the period depends on it. *)
Theorem second_question_mark_cuts base qs rest :
  PyStr.contains "?" base = false ->
  PyStr.contains "?" qs = false ->
  symbol_and_period (base +:+ String "?" (qs +:+ String "?" rest))
  = symbol_and_period (base +:+ String "?" qs).
Proof.
  intros Hb Hq.
  rewrite (symbol_and_period_parts _ base qs (PyStr.split "?" rest)).
  - rewrite (symbol_and_period_parts _ base qs []); [done|].
    by apply split_path_query.
  - by rewrite (split_separator _ _ _ Hb), (split_separator _ _ _ Hq).
Qed.

(** X6. The symbol never holds a [?]: in the URL of the outbound call
    the first [?] is the one before [interval]. *)
Theorem symbol_without_question_mark p symbol period :
  symbol_and_period p = inr (symbol, period) ->
  PyStr.contains "?" symbol = false
  /\ (PyStr.split_pieces "?" (chart_url symbol (interval_of period) period)).1
     = "https://query1.finance.yahoo.com/v8/finance/chart/" +:+ symbol.
Proof.
  intros Hsp.
  assert (symbol = PyStr.replace "/api/quote/" "" (PyStr.split_pieces "?" p).1) as Hs.
  { revert Hsp. unfold symbol_and_period. rewrite split_unfold. simpl.
    destruct (PyStr.split_pieces "?" p).2 as [|part1 parts]; simpl.
    - by intros [= <- _].
    - destruct (index _ 0) as [e|period']; [done|]. by intros [= <- _]. }
  assert (PyStr.contains "?" symbol = false) as Hc.
  { rewrite Hs. apply replace_scan_delete_contains, split_head_clean. }
  split; [done|].
  unfold chart_url. rewrite <- append_assoc.
  change ("?interval=" +:+ interval_of period +:+ "&range=" +:+ period)
    with (String "?" ("interval=" +:+ interval_of period +:+ "&range=" +:+ period)).
  apply split_pieces_head. rewrite contains_app. by rewrite Hc.
Qed.

(** X7. A query of one field that has no value, written with its [=]
    or without it, counts for nothing: [?period=] and [?period] get the
    period [1d] like a path without query. *)
Theorem field_without_value base name :
  PyStr.contains "?" base = false ->
  PyStr.contains "?" name = false ->
  PyStr.contains "&" name = false ->
  PyStr.contains "=" name = false ->
  symbol_and_period (base +:+ String "?" name)
  = inr (PyStr.replace "/api/quote/" "" base, "1d")
  /\ symbol_and_period (base +:+ String "?" (name +:+ "="))
     = inr (PyStr.replace "/api/quote/" "" base, "1d").
Proof.
  intros Hb Hq Hamp Heq.
  destruct (parse_qsl_no_value name Hamp Heq) as [Hbare Hblank]. split.
  - rewrite (symbol_and_period_parts _ base name []); [by rewrite Hbare|].
    by apply split_path_query.
  - rewrite (symbol_and_period_parts _ base (name +:+ "=") []); [by rewrite Hblank|].
    apply split_path_query; [done|]. rewrite contains_app. by rewrite Hq.
Qed.


(** X9. Every outbound call goes to the chart endpoint of the one
    upstream host, with the fixed user agent, certificates not verified
    and a timeout of ten seconds: if that holds of the calls made so far,
    it holds after the proxy, and after [do_GET], whatever the path. *)
Theorem outbound_calls_fixed self :
  Forall chart_call (outbound self) ->
  Forall chart_call (outbound (handle_api_request self))
  /\ Forall chart_call (outbound (do_GET self)).
Proof.
  intros H.
  assert (Forall chart_call (outbound (handle_api_request self))) as Hproxy.
  { destruct (symbol_and_period_total (path self)) as (symbol & period & Hsp).
    rewrite (handle_api_request_outbound _ _ _ Hsp). apply Forall_app.
    split; [done|]. constructor; [|constructor].
    unfold chart_call, chart_url. by repeat split. }
  split; [done|]. unfold do_GET. destruct (PyStr.startswith _ _); [done|].
  by rewrite run_outbound.
Qed.

(** X10. In every header block sent the three CORS headers are the last
    three lines, in the order [Allow-Origin], [Allow-Methods],
    [Allow-Headers]: if that holds of what was sent so far, it holds
    after [do_OPTIONS], after the proxy, after [do_GET], and after any
    code of the base classes that answers through the handler. *)
Theorem cors_closes_every_head self :
  Forall closes_with_cors (wfile self) ->
  Forall closes_with_cors (wfile (do_OPTIONS self))
  /\ Forall closes_with_cors (wfile (handle_api_request self))
  /\ Forall closes_with_cors (wfile (do_GET self))
  /\ forall calls, Forall closes_with_cors (wfile (run calls self)).
Proof.
  intros H.
  assert (forall b s, Forall closes_with_cors (wfile s) ->
            Forall closes_with_cors (wfile (set_headers_buffer b s))) as Hbuffer
    by done.
  assert (forall data s, Forall closes_with_cors (wfile s) ->
            Forall closes_with_cors (wfile (wfile_write data s))) as Hbody.
  { intros data s Hs. apply Forall_app. split; [done|]. by repeat constructor. }
  assert (forall buffer s, Forall closes_with_cors (wfile s) ->
            Forall closes_with_cors (wfile (with_head (buffer ++ cors_headers) s)))
    as Hhead.
  { intros buffer s Hs. apply Forall_app. split; [done|].
    constructor; [by exists buffer | constructor]. }
  assert (Forall closes_with_cors (wfile (handle_api_request self))) as Hproxy.
  { by apply (handle_api_request_kept (fun s => Forall closes_with_cors (wfile s))). }
  assert (forall calls, Forall closes_with_cors (wfile (run calls self))) as Hrun.
  { intros calls.
    by apply (run_kept (fun s => Forall closes_with_cors (wfile s))). }
  repeat split; try done.
  - by apply (do_OPTIONS_kept (fun s => Forall closes_with_cors (wfile s))).
  - unfold do_GET. by destruct (PyStr.startswith _ _).
Qed.

End Server.

(** ** The claims at work in the demo world *)

Local Abbreviation demo_api upstream :=
  (handle_api_request Demo.responses Demo.version_string Demo.date_time_string
     Demo.error_page upstream Demo.unquote_escapes Demo.encode_error).
Local Abbreviation demo_GET upstream :=
  (do_GET Demo.responses Demo.version_string Demo.date_time_string
     Demo.error_page upstream Demo.unquote_escapes Demo.encode_error
     Demo.no_static_file).
Local Abbreviation demo_OPTIONS :=
  (do_OPTIONS Demo.responses Demo.version_string Demo.date_time_string
     Demo.encode_error).
Local Abbreviation demo_period := (symbol_and_period Demo.unquote_escapes).

Lemma fresh_modern cmd p : request_version (fresh cmd p) <> "HTTP/0.9".
Proof. discriminate. Qed.

Lemma demo_stamps_encode :
  stamps_encode Demo.responses Demo.version_string Demo.date_time_string.
Proof.
  split; [reflexivity|]. split; [reflexivity|].
  intros code. unfold short_message, Demo.responses.
  by repeat case_match; simplify_eq.
Qed.

(** [GET /api/quote/AAPL?period=5d] with the upstream up. *)
Lemma quote_success_witness :
  demo_period "/api/quote/AAPL?period=5d" = inr ("AAPL", "5d")
  /\ wfile (demo_api Demo.upstream_up (fresh "GET" "/api/quote/AAPL?period=5d"))
     = [ Head [ StatusLine 200 "OK";
                Header "Server" "SimpleHTTP/0.6 Python/3.11.2";
                Header "Date" "Tue, 03 Nov 2026 10:15:00 GMT";
                Header "Content-Type" "application/json";
                Header "Access-Control-Allow-Origin" "*";
                Header "Access-Control-Allow-Methods" "GET, POST, OPTIONS";
                Header "Access-Control-Allow-Headers" "Content-Type" ];
         Body "{}" ].
Proof.
  split; [reflexivity|].
  apply (quote_success Demo.responses Demo.version_string Demo.date_time_string
           Demo.error_page Demo.upstream_up Demo.unquote_escapes Demo.encode_error
           (fresh "GET" "/api/quote/AAPL?period=5d") "AAPL" "5d" "{}");
    [apply fresh_modern | apply demo_stamps_encode | reflexivity..].
Defined.

(** The period [2y] is not in the table. *)
Lemma interval_of_table_witness :
  ("2y" ∉ ["1d"; "5d"; "1mo"; "3mo"; "6mo"; "1y"]) /\ interval_of "2y" = "1d".
Proof.
  assert ("2y" ∉ ["1d"; "5d"; "1mo"; "3mo"; "6mo"; "1y"]) as H.
  { intros Hin.
    repeat (apply elem_of_cons in Hin as [Hin|Hin]; [discriminate Hin|]).
    by apply elem_of_nil in Hin. }
  split; [exact H|].
  destruct interval_of_table as (_ & _ & _ & _ & _ & _ & Hdefault).
  exact (Hdefault "2y" H).
Defined.


(** A query without [period]. *)
Lemma period_defaults_witness :
  PyStr.contains "?" "/api/quote/AAPL" = false
  /\ parse_qsl Demo.unquote_escapes "range=5d&x=1" = [("range", "5d"); ("x", "1")]
  /\ demo_period "/api/quote/AAPL?range=5d&x=1" = inr ("AAPL", "1d")
  /\ interval_of "1d" = "5m".
Proof.
  split; [reflexivity|]. split; [reflexivity|].
  apply (period_defaults Demo.unquote_escapes "/api/quote/AAPL" (Some "range=5d&x=1"));
    [reflexivity|].
  intros qs value [= <-] Hin. vm_compute in Hin.
  repeat (apply elem_of_cons in Hin as [Hin|Hin]; [discriminate Hin|]).
  by apply elem_of_nil in Hin.
Defined.

(** The upstream answers 404: so does the proxy. *)
Lemma upstream_http_error_witness :
  responds []
    (wfile (demo_api Demo.upstream_not_found (fresh "GET" "/api/quote/NOPE")))
    404 "API Error: Not Found".
Proof.
  apply (upstream_http_error Demo.responses Demo.version_string Demo.date_time_string
           Demo.error_page Demo.upstream_not_found Demo.unquote_escapes
           Demo.encode_error
           (fresh "GET" "/api/quote/NOPE") "NOPE" "1d" 404 "Not Found");
    [apply fresh_modern | apply demo_stamps_encode | reflexivity..].
Defined.



Lemma options_preflight_witness :
  wfile (demo_OPTIONS (fresh "OPTIONS" "/api/quote/AAPL"))
  = [ Head [ StatusLine 200 "OK";
             Header "Server" "SimpleHTTP/0.6 Python/3.11.2";
             Header "Date" "Tue, 03 Nov 2026 10:15:00 GMT";
             Header "Access-Control-Allow-Origin" "*";
             Header "Access-Control-Allow-Methods" "GET, POST, OPTIONS";
             Header "Access-Control-Allow-Headers" "Content-Type" ] ].
Proof.
  apply (options_preflight Demo.responses Demo.version_string Demo.date_time_string
           Demo.encode_error (fresh "OPTIONS" "/api/quote/AAPL"));
    [apply fresh_modern | apply demo_stamps_encode | reflexivity].
Defined.

(** [/api/quote] without the slash is a static file (here: a missing
    one), and nothing goes out. *)
Lemma do_GET_dispatch_witness :
  demo_GET Demo.upstream_up (fresh "GET" "/api/quote")
  = run Demo.responses Demo.version_string Demo.date_time_string Demo.error_page
      Demo.encode_error
      (Demo.no_static_file (fresh "GET" "/api/quote")) (fresh "GET" "/api/quote")
  /\ outbound (demo_GET Demo.upstream_up (fresh "GET" "/api/quote")) = [].
Proof.
  destruct (do_GET_dispatch Demo.responses Demo.version_string Demo.date_time_string
              Demo.error_page Demo.upstream_up Demo.unquote_escapes Demo.encode_error
              Demo.no_static_file (fresh "GET" "/api/quote")) as [_ Hstatic].
  exact (Hstatic eq_refl).
Defined.

(** ** The further properties at work in the demo world *)

(** An empty symbol, and an upstream that breaks. *)
Lemma proxy_answers_once_witness :
  responds []
    (wfile (demo_api Demo.upstream_broken (fresh "GET" "/api/quote/")))
    500 "Server Error: Remote end closed connection without response"
  /\ headers_buffer (demo_api Demo.upstream_broken (fresh "GET" "/api/quote/")) = [].
Proof.
  destruct (proxy_answers_once Demo.responses Demo.version_string
              Demo.date_time_string Demo.error_page Demo.upstream_broken
              Demo.unquote_escapes Demo.encode_error (fresh "GET" "/api/quote/")
              (fresh_modern _ _) demo_stamps_encode eq_refl)
    as (symbol & period & _ & _ & Hbuffer & Hanswer).
  split; [|exact Hbuffer].
  unfold Demo.upstream_broken in Hanswer. cbv beta iota zeta in Hanswer.
  change (PyStr.latin_1
            ("Server Error: " +:+ "Remote end closed connection without response"))
    with true in Hanswer.
  cbv iota in Hanswer. exact (proj1 Hanswer).
Defined.


Lemma first_period_wins_witness :
  values_named "period"
    (parse_qsl Demo.unquote_escapes "x=1&period=&period=5d&period=1y") = ["5d"; "1y"]
  /\ demo_period "/api/quote/AAPL?x=1&period=&period=5d&period=1y" = inr ("AAPL", "5d").
Proof.
  split; [reflexivity|].
  apply (first_period_wins Demo.unquote_escapes "/api/quote/AAPL"
           "x=1&period=&period=5d&period=1y"); reflexivity.
Defined.

Lemma second_question_mark_cuts_witness :
  demo_period "/api/quote/AAPL?period=5d?period=1y"
  = demo_period "/api/quote/AAPL?period=5d".
Proof.
  apply (second_question_mark_cuts Demo.unquote_escapes "/api/quote/AAPL"
           "period=5d" "period=1y"); reflexivity.
Defined.

Lemma symbol_without_question_mark_witness :
  PyStr.contains "?" "GOOG" = false
  /\ (PyStr.split_pieces "?" (chart_url "GOOG" (interval_of "1y") "1y")).1
     = "https://query1.finance.yahoo.com/v8/finance/chart/GOOG".
Proof.
  apply (symbol_without_question_mark Demo.unquote_escapes
           "/api/quote/GOOG?period=1y" "GOOG" "1y").
  reflexivity.
Defined.

Lemma field_without_value_witness :
  demo_period "/api/quote/AAPL?period" = inr ("AAPL", "1d")
  /\ demo_period "/api/quote/AAPL?period=" = inr ("AAPL", "1d").
Proof.
  apply (field_without_value Demo.unquote_escapes "/api/quote/AAPL" "period");
    reflexivity.
Defined.


Lemma outbound_calls_fixed_witness :
  Forall chart_call
    (outbound (demo_GET Demo.upstream_unreachable
                 (fresh "GET" "/api/quote/@example.org/?x")))
  /\ outbound (demo_GET Demo.upstream_unreachable
                 (fresh "GET" "/api/quote/@example.org/?x"))
     = [ chart_request
           "https://query1.finance.yahoo.com/v8/finance/chart/@example.org/?interval=5m&range=1d" ].
Proof.
  split; [|reflexivity].
  apply (outbound_calls_fixed Demo.responses Demo.version_string
           Demo.date_time_string Demo.error_page Demo.upstream_unreachable
           Demo.unquote_escapes Demo.encode_error Demo.no_static_file
           (fresh "GET" "/api/quote/@example.org/?x")).
  constructor.
Defined.

Lemma cors_closes_every_head_witness :
  Forall closes_with_cors (wfile (demo_OPTIONS (fresh "OPTIONS" "*")))
  /\ Forall closes_with_cors
       (wfile (demo_GET Demo.upstream_up (fresh "GET" "/missing.html"))).
Proof.
  pose proof (cors_closes_every_head Demo.responses Demo.version_string
                Demo.date_time_string Demo.error_page Demo.upstream_up
                Demo.unquote_escapes Demo.encode_error Demo.no_static_file) as H.
  split.
  - apply (H (fresh "OPTIONS" "*")). constructor.
  - apply (H (fresh "GET" "/missing.html")). constructor.
Defined.

(** ** Requests of HTTP/0.9, and texts outside latin-1 *)

(** [GET /api/quote/AAPL] without a version, the upstream up: the body
    goes out alone, without status line and without header. *)
Lemma quote_success_http_0_9 :
  wfile (demo_api Demo.upstream_up (fresh_0_9 "GET" "/api/quote/AAPL"))
  = [Body "{}"]
  /\ ~ (exists message lines body,
          wfile (demo_api Demo.upstream_up (fresh_0_9 "GET" "/api/quote/AAPL"))
          = Head (StatusLine 200 message :: lines) :: body).
Proof.
  assert (wfile (demo_api Demo.upstream_up (fresh_0_9 "GET" "/api/quote/AAPL"))
          = [Body "{}"]) as Hw by reflexivity.
  split; [exact Hw|]. intros (message & lines & body & H).
  rewrite Hw in H. discriminate H.
Qed.

(** [GET /api/quote/NOPE] without a version, the upstream answering
    404: the error page goes out alone, there is no status. *)
Lemma upstream_http_error_http_0_9 :
  wfile (demo_api Demo.upstream_not_found (fresh_0_9 "GET" "/api/quote/NOPE"))
  = [Body "Error response: API Error: Not Found. Nothing matches the given URI."]
  /\ forall message,
       ~ responds []
           (wfile (demo_api Demo.upstream_not_found
                     (fresh_0_9 "GET" "/api/quote/NOPE")))
           404 message.
Proof.
  assert (wfile (demo_api Demo.upstream_not_found (fresh_0_9 "GET" "/api/quote/NOPE"))
          = [Body "Error response: API Error: Not Found. Nothing matches the given URI."])
    as Hw by reflexivity.
  split; [exact Hw|]. intros message (lines & body & H & _).
  rewrite Hw in H. discriminate H.
Qed.



(** [OPTIONS /x HTTP/0.9]: nothing is written, no status 200. *)
Lemma options_preflight_http_0_9 :
  wfile (demo_OPTIONS (fresh_0_9 "OPTIONS" "/x")) = []
  /\ ~ (exists message lines body,
          wfile (demo_OPTIONS (fresh_0_9 "OPTIONS" "/x"))
          = Head (StatusLine 200 message :: lines) :: body).
Proof.
  assert (wfile (demo_OPTIONS (fresh_0_9 "OPTIONS" "/x")) = []) as Hw
    by reflexivity.
  split; [exact Hw|]. intros (message & lines & body & H).
  rewrite Hw in H. discriminate H.
Qed.
